(** * Ingestion service of the MongoDB vector-search API ([main.py])

    A shallow embedding of [main.py]: the start-up configuration, the
    request and response schemas, the helper [_to_list] and the endpoint
    [add_text], followed by the properties of the service.

    The two collaborators of the endpoint, the sentence-embedding model
    ([model.encode]) and the document store ([texts_coll.insert_one]), are
    not part of the program.  They are parameters of the development; what
    a theorem needs from them is stated as an explicit contract. *)

From Stdlib Require Import String Ascii List ZArith Lia.
From stdpp Require Import base gmap strings list.

Local Open Scope string_scope.

(** ** Python values shared by the whole file *)

(** A Python exception caught by [except Exception as e]: its class name
    and the text that [str(e)] gives. *)
Record Exception := mkException {
  exc_class : string;
  exc_text : string
}.

(** [str(e)] *)
Definition str (e : Exception) : string := exc_text e.

(** The result of evaluating a Python expression: a value, or a raised
    exception. *)
Inductive result (A : Type) : Type :=
| Ok (a : A)
| Raise (e : Exception).
Arguments Ok {A} a.
Arguments Raise {A} e.

(** The line feed of the f-string in [add_text]. *)
Definition LF : ascii := "010"%char.

(** Whether a text has a line feed in it. *)
Fixpoint has_line_feed (s : string) : bool :=
  match s with
  | EmptyString => false
  | String ch rest => Ascii.eqb ch LF || has_line_feed rest
  end.

(** Python truthiness of [os.getenv]'s result: [None] and the empty string
    are falsy. *)
Definition truthy (v : option string) : bool :=
  match v with
  | None => false
  | Some EmptyString => false
  | Some (String _ _) => true
  end.

(** ** Configuration read at start-up (lines 9 to 17) *)

Module Config.

(** The process environment, [os.environ]. *)
Abbreviation environ := (gmap string string).

(** [load_dotenv()] with its default [override=False]: a variable of the
    [.env] file is set only where the environment does not have it. *)
Definition load_dotenv (dotenv env : environ) : environ := env ∪ dotenv.

(** [os.getenv(key)] and [os.getenv(key, default)] *)
Definition getenv (env : environ) (key : string) : option string :=
  env !! key.

Definition getenv_default (env : environ) (key default : string) : string :=
  match env !! key with
  | Some v => v
  | None => default
  end.

Definition MONGODB_URI (env : environ) : option string :=
  getenv env "MONGODB_URI".

Definition DB_NAME (env : environ) : string :=
  getenv_default env "DB_NAME" "vector_db".

Definition TEXT_COLLECTION (env : environ) : string :=
  getenv_default env "TEXT_COLLECTION" "texts".

(** What the module holds once the guard of line 16 has been passed. *)
Record settings := mkSettings {
  uri : string;
  db_name : string;
  text_collection : string
}.

Definition missing_uri : Exception :=
  mkException "RuntimeError" "Set MONGODB_URI in .env before running".

(** Lines 12 to 17 on an environment: the three reads, then the guard
    [if not MONGODB_URI: raise RuntimeError(...)]. *)
Definition configure (env : environ) : result settings :=
  let MONGODB_URI := MONGODB_URI env in
  let DB_NAME := DB_NAME env in
  let TEXT_COLLECTION := TEXT_COLLECTION env in
  if negb (truthy MONGODB_URI) then Raise missing_uri
  else
    match MONGODB_URI with
    | Some u => Ok (mkSettings u DB_NAME TEXT_COLLECTION)
    | None => Raise missing_uri  (* not reached: [None] is falsy *)
    end.

(** Lines 9 to 17: [load_dotenv()] first, then the configuration. *)
Definition startup (dotenv env : environ) : result settings :=
  configure (load_dotenv dotenv env).

End Config.

(** ** Request and response schemas (lines 32 to 38) *)

Module AddTextRequest.
Record t := mk { title : string; content : string }.
End AddTextRequest.

Module AddTextResponse.
Record t := mk { inserted_id : string; title : string }.
End AddTextResponse.

(** The embedding model's name, line 28. *)
Definition MODEL_NAME : string := "all-MiniLM-L6-v2".

(** Two requests that differ in title and content and are framed into the
    same text: ("a", "b\n\nc") and ("a\n\nb", "c"). *)
Definition split_early : AddTextRequest.t :=
  AddTextRequest.mk "a" (String "b" (String LF (String LF "c"))).

Definition split_late : AddTextRequest.t :=
  AddTextRequest.mk (String "a" (String LF (String LF "b"))) "c".

(** ** The request body and its validation

    The endpoint is declared with [payload: AddTextRequest], so the web
    framework validates the JSON body against the schema of lines 32 to 34
    (two required fields of type [str]) before it calls [add_text]. *)

#[warnings="-register-all"] Inductive json : Type :=
| JNull
| JBool (b : bool)
| JNumber (literal : string)
| JString (s : string)
| JArray (items : list json)
| JObject (members : gmap string json).

(** A field declared [name: str]: present and a JSON string. *)
Definition str_field (members : gmap string json) (name : string)
  : option string :=
  match members !! name with
  | Some (JString s) => Some s
  | _ => None
  end.

(** Validation of a body against [AddTextRequest]. *)
Definition validate (body : json) : option AddTextRequest.t :=
  match body with
  | JObject members =>
      match str_field members "title", str_field members "content" with
      | Some title, Some content => Some (AddTextRequest.mk title content)
      | _, _ => None
      end
  | _ => None
  end.

(** ** What a call of the endpoint gives back *)

(** [add_text] either returns its response or raises [HTTPException]. *)
Inductive outcome : Type :=
| Returned (response : AddTextResponse.t)
| HTTPException (status_code : nat) (detail : string).

(** The HTTP reply of [POST /add-text]: the framework answers 422 to a body
    that fails validation, 200 with the returned response, and the status
    and detail of a raised [HTTPException]. *)
Inductive reply : Type :=
| Reply200 (response : AddTextResponse.t)
| Reply422
| ReplyError (status_code : nat) (detail : string).

Definition status (r : reply) : nat :=
  match r with
  | Reply200 _ => 200
  | Reply422 => 422
  | ReplyError code _ => code
  end.

Definition reply_of (o : outcome) : reply :=
  match o with
  | Returned response => Reply200 response
  | HTTPException code detail => ReplyError code detail
  end.

(** ** The service

    Everything below is parameterised by the two collaborators. *)

Section Service.

(** A Python [float]; its values are never inspected by the service. *)
Variable pyfloat : Type.

(** The identifier type of the store ([bson.ObjectId]) with its [str()]. *)
Variable ObjectId : Type.
Variable str_ObjectId : ObjectId -> string.

(** *** Documents *)

(** The values that occur in the document built by [add_text]. *)
Inductive value : Type :=
| VStr (s : string)
| VFloats (l : list pyfloat).

(** A Python [dict] with string keys, in insertion order. *)
Definition document : Type := list (string * value).

Fixpoint get (d : document) (key : string) : option value :=
  match d with
  | [] => None
  | (k, v) :: rest => if String.eqb k key then Some v else get rest key
  end.

(** A document as the collection holds it: the fields it was inserted
    with and the identifier the store gave it. *)
Record stored := mkStored {
  _id : ObjectId;
  fields : document
}.

(** *** The embedding collaborator *)

(** What [model.encode] returns, as far as [_to_list] looks at it: whether
    it has a [tolist] attribute (and what calling it gives), and what
    [list(...)] makes of it. *)
Record vector := mkVector {
  tolist : option (result (list pyfloat));
  iterate : result (list pyfloat)
}.

(** A one-dimensional numpy array, and a plain Python list. *)
Definition ndarray (data : list pyfloat) : vector :=
  mkVector (Some (Ok data)) (Ok data).

Definition pylist (data : list pyfloat) : vector :=
  mkVector None (Ok data).

(** [model.encode(text)] *)
Variable model_encode : string -> result vector.

(** *** The store collaborator *)

(** The state of the deployment behind [texts_coll], and the documents of
    the collection in that state, in insertion order. *)
Variable store : Type.
Variable documents : store -> list stored.

Record InsertOneResult := mkInsertOneResult {
  result_inserted_id : ObjectId
}.

(** [texts_coll.insert_one(doc)] *)
Variable insert_one : store -> document -> store * result InsertOneResult.

(** *** Helper: [_to_list] (lines 41 to 43) *)

Definition _to_list (vector : vector) : result (list pyfloat) :=
  match tolist vector with
  | Some called => called
  | None => iterate vector
  end.

(** *** The state a request runs in *)

(** A call made to a collaborator. *)
Inductive call : Type :=
| Encode (text : string)
| InsertOne (doc : document).

(** The store behind [texts_coll] and the calls made to the collaborators
    so far, oldest first. *)
Record world := mkWorld {
  texts_coll : store;
  calls : list call
}.

(** Statements of a [try] block: they read and change the world and may
    raise. *)
Definition block (A : Type) : Type := world -> world * result A.

Definition ret {A} (a : A) : block A := fun w => (w, Ok a).

Definition bind {A B} (m : block A) (k : A -> block B) : block B :=
  fun w =>
    match m w with
    | (w', Ok a) => k a w'
    | (w', Raise e) => (w', Raise e)
    end.

(** An expression without effect on the world. *)
Definition eval {A} (r : result A) : block A := fun w => (w, r).

(** [model.encode(text)], recorded. *)
Definition encode (text : string) : block vector :=
  fun w =>
    (mkWorld (texts_coll w) (calls w ++ [Encode text])%list, model_encode text).

(** [texts_coll.insert_one(doc)], recorded. *)
Definition texts_coll_insert_one (doc : document) : block InsertOneResult :=
  fun w =>
    let (s, r) := insert_one (texts_coll w) doc in
    (mkWorld s (calls w ++ [InsertOne doc])%list, r).

(** [try: body except Exception as e: handler(e)] *)
Definition try_except (body : block AddTextResponse.t)
    (handler : Exception -> outcome) : world -> world * outcome :=
  fun w =>
    match body w with
    | (w', Ok response) => (w', Returned response)
    | (w', Raise e) => (w', handler e)
    end.

Notation "x <- m ;; k" := (bind m (fun x => k))
  (at level 100, m at next level, right associativity).

(** *** Endpoint: [add_text] (lines 51 to 73) *)

Definition add_text (payload : AddTextRequest.t) : world -> world * outcome :=
  try_except
    (let text :=
       AddTextRequest.title payload
         +:+ String LF (String LF (AddTextRequest.content payload)) in
     embedding <- encode text ;;
     embedding_list <- eval (_to_list embedding) ;;
     let doc :=
       [ ("title", VStr (AddTextRequest.title payload));
         ("content", VStr (AddTextRequest.content payload));
         ("embedding", VFloats embedding_list);
         ("model", VStr MODEL_NAME) ] in
     res <- texts_coll_insert_one doc ;;
     ret (AddTextResponse.mk
            (str_ObjectId (result_inserted_id res))
            (AddTextRequest.title payload)))
    (fun e => HTTPException 500 (str e)).

(** [POST /add-text]: validation by the framework, then the endpoint. *)
Definition post_add_text (body : json) (w : world) : world * reply :=
  match validate body with
  | None => (w, Reply422)
  | Some payload =>
      let (w', o) := add_text payload w in (w', reply_of o)
  end.

(** *** Contracts of the collaborators

    What the theorems below ask of [insert_one] and of [model.encode];
    each theorem names the ones it needs. *)

(** A successful insert adds exactly the given document, under the
    identifier it returns, after the documents already there. *)
Definition insert_appends : Prop :=
  forall s doc s' res,
    insert_one s doc = (s', Ok res) ->
    documents s' = (documents s ++ [mkStored (result_inserted_id res) doc])%list.

(** An insert that raises leaves the collection as it was. *)
Definition insert_atomic : Prop :=
  forall s doc s' e,
    insert_one s doc = (s', Raise e) -> documents s' = documents s.

(** The identifier of a successful insert is not the identifier of a
    document already in the collection. *)
Definition insert_fresh : Prop :=
  forall s doc s' res,
    insert_one s doc = (s', Ok res) ->
    ~ In (result_inserted_id res) (map _id (documents s)).

(** The model gives vectors of dimension [n]: arrays or lists of [n]
    floats. *)
Definition fixed_dimension (n : nat) : Prop :=
  forall text v,
    model_encode text = Ok v ->
    exists data, length data = n /\ (v = ndarray data \/ v = pylist data).

(** *** Observations used in the statements *)

(** The text blob that [add_text] builds on line 57. *)
Definition blob (title content : string) : string :=
  title +:+ String LF (String LF content).

(** The document that [add_text] builds on lines 63 to 68. *)
Definition text_document (title content : string)
    (embedding_list : list pyfloat) : document :=
  [ ("title", VStr title);
    ("content", VStr content);
    ("embedding", VFloats embedding_list);
    ("model", VStr MODEL_NAME) ].

(** The length of the [embedding] field of a stored document. *)
Definition embedding_length (d : stored) : option nat :=
  match get (fields d) "embedding" with
  | Some (VFloats l) => Some (length l)
  | _ => None
  end.

(** A stored document is well-formed when its embedding has 384 floats
    and its model field is the configured name. *)
Definition well_formed (d : stored) : Prop :=
  embedding_length d = Some 384 /\
  get (fields d) "model" = Some (VStr MODEL_NAME).

(** The worlds that a sequence of calls of [add_text] leads to from
    [w0]. *)
Inductive ingests (w0 : world) : world -> Prop :=
| ingests_refl : ingests w0 w0
| ingests_step (w : world) (payload : AddTextRequest.t) :
    ingests w0 w -> ingests w0 (fst (add_text payload w)).

(** The try block of [add_text] fails with [e]: in the embedding
    computation, in the conversion of the vector, or in the insert. *)
Inductive fails_with (payload : AddTextRequest.t) (w : world)
    (e : Exception) : Prop :=
| fails_encode :
    model_encode (blob (AddTextRequest.title payload)
                       (AddTextRequest.content payload)) = Raise e ->
    fails_with payload w e
| fails_to_list (v : vector) :
    model_encode (blob (AddTextRequest.title payload)
                       (AddTextRequest.content payload)) = Ok v ->
    _to_list v = Raise e ->
    fails_with payload w e
| fails_insert (v : vector) (l : list pyfloat) :
    model_encode (blob (AddTextRequest.title payload)
                       (AddTextRequest.content payload)) = Ok v ->
    _to_list v = Ok l ->
    snd (insert_one (texts_coll w)
           (text_document (AddTextRequest.title payload)
                          (AddTextRequest.content payload) l)) = Raise e ->
    fails_with payload w e.

End Service.

Arguments VStr {pyfloat} s.
Arguments VFloats {pyfloat} l.
Arguments get {pyfloat} d key.
Arguments mkStored {pyfloat ObjectId} _ _.
Arguments _id {pyfloat ObjectId} s.
Arguments fields {pyfloat ObjectId} s.
Arguments mkVector {pyfloat} tolist iterate.
Arguments tolist {pyfloat} v.
Arguments iterate {pyfloat} v.
Arguments ndarray {pyfloat} data.
Arguments pylist {pyfloat} data.
Arguments mkInsertOneResult {ObjectId} _.
Arguments result_inserted_id {ObjectId} _.
Arguments _to_list {pyfloat} vector.
Arguments Encode {pyfloat} text.
Arguments InsertOne {pyfloat} doc.
Arguments mkWorld {pyfloat store} _ _.
Arguments texts_coll {pyfloat store} w.
Arguments calls {pyfloat store} w.
Arguments add_text {pyfloat ObjectId} str_ObjectId model_encode {store}
  insert_one payload w.
Arguments post_add_text {pyfloat ObjectId} str_ObjectId model_encode {store}
  insert_one body w.
Arguments insert_appends {pyfloat ObjectId store} documents insert_one.
Arguments insert_atomic {pyfloat ObjectId store} documents insert_one.
Arguments insert_fresh {pyfloat ObjectId store} documents insert_one.
Arguments fixed_dimension {pyfloat} model_encode n.
Arguments text_document {pyfloat} title content embedding_list.
Arguments embedding_length {pyfloat ObjectId} d.
Arguments well_formed {pyfloat ObjectId} d.
Arguments ingests {pyfloat ObjectId} str_ObjectId model_encode {store}
  insert_one w0 _.
Arguments fails_with {pyfloat ObjectId} model_encode {store} insert_one
  payload w e.

(** ** The application and its routes (lines 20 and 45 to 52) *)

(** Endpoint: [root] (lines 46 to 48), the health check. *)
Definition root : list (string * string) :=
  [("message", "MongoDB Vector Search API is running!")].

Inductive method : Type :=
| GET
| POST
| OtherMethod (name : string).

Record request := mkRequest {
  verb : method;
  path : string;
  body : json
}.

(** What the application answers: the dictionary of [root], the reply of
    [POST /add-text], or an answer of the framework alone, when the request
    reaches neither of the two endpoints of [main.py]. *)
Inductive response : Type :=
| RootReply (message : list (string * string))
| AddTextReply (r : reply)
| NoEndpoint.

(** The responses of the requests that [add_text] answered by returning. *)
Fixpoint successes (l : list response) : list AddTextResponse.t :=
  match l with
  | [] => []
  | AddTextReply (Reply200 r) :: rest => r :: successes rest
  | _ :: rest => successes rest
  end.

Section Application.

Variable pyfloat : Type.
Variable ObjectId : Type.
Variable str_ObjectId : ObjectId -> string.
Variable model_encode : string -> result (vector pyfloat).
Variable store : Type.
Variable insert_one :
  store -> document pyfloat -> store * result (InsertOneResult ObjectId).

(** The two routes, [@app.get("/")] and [@app.post("/add-text")]. *)
Definition app (req : request) (w : world pyfloat store)
  : world pyfloat store * response :=
  match verb req with
  | GET =>
      if String.eqb (path req) "/" then (w, RootReply root)
      else (w, NoEndpoint)
  | POST =>
      if String.eqb (path req) "/add-text" then
        let (w', r) :=
          post_add_text str_ObjectId model_encode insert_one (body req) w in
        (w', AddTextReply r)
      else (w, NoEndpoint)
  | OtherMethod _ => (w, NoEndpoint)
  end.

(** Requests served one after the other, with their answers in order. *)
Fixpoint serve_all (reqs : list request) (w : world pyfloat store)
  : world pyfloat store * list response :=
  match reqs with
  | [] => (w, [])
  | req :: rest =>
      let (w1, answer) := app req w in
      let (w2, answers) := serve_all rest w1 in
      (w2, answer :: answers)
  end.

End Application.

Arguments app {pyfloat ObjectId} str_ObjectId model_encode {store}
  insert_one req w.
Arguments serve_all {pyfloat ObjectId} str_ObjectId model_encode {store}
  insert_one reqs w.

(** ** Test doubles for the collaborators

    An in-memory store and small encoders, of the kind a test suite would
    put in place of MongoDB and of the model.  They show that the contracts
    above can be met and serve to run the endpoint on concrete requests. *)

Module Double.

(** Floats of the doubles are integers; identifiers are numbers printed as
    24 hexadecimal digits. *)
Definition float : Type := Z.
Definition oid : Type := N.

Definition hex_digit (n : N) : ascii :=
  match n with
  | 0 => "0" | 1 => "1" | 2 => "2" | 3 => "3" | 4 => "4" | 5 => "5"
  | 6 => "6" | 7 => "7" | 8 => "8" | 9 => "9" | 10 => "a" | 11 => "b"
  | 12 => "c" | 13 => "d" | 14 => "e" | _ => "f"
  end%N%char.

Fixpoint hex (digits : nat) (n : N) (suffix : string) : string :=
  match digits with
  | O => suffix
  | S k => hex k (n / 16)%N (String (hex_digit (n mod 16)%N) suffix)
  end.

Definition str_oid (id : oid) : string := hex 24 id EmptyString.

(** The store: its documents, and whether the server can be reached. *)
Record mem := mkMem {
  docs : list (stored float oid);
  online : bool
}.

Definition next_id (l : list (stored float oid)) : oid :=
  N.succ (fold_right N.max 0%N (map _id l)).

Definition unreachable : Exception :=
  mkException "ServerSelectionTimeoutError" "localhost:27017: connection refused".

Definition mem_insert_one (s : mem) (doc : document float)
  : mem * result (InsertOneResult oid) :=
  if online s then
    let id := next_id (docs s) in
    (mkMem (docs s ++ [mkStored id doc])%list true, Ok (mkInsertOneResult id))
  else (s, Raise unreachable).

(** An encoder of dimension 384 (every component is the length of the
    text), one that answers with a plain list, one that fails, and one
    that answers with an object that has no [tolist] and is not iterable. *)
Definition encode_array (text : string) : result (vector float) :=
  Ok (ndarray (repeat (Z.of_nat (String.length text)) 384)).

Definition encode_list (text : string) : result (vector float) :=
  Ok (pylist (repeat (Z.of_nat (String.length text)) 384)).

Definition out_of_memory : Exception :=
  mkException "RuntimeError" "out of memory".

Definition encode_failing (text : string) : result (vector float) :=
  Raise out_of_memory.

Definition not_iterable : Exception :=
  mkException "TypeError" "'NoneType' object is not iterable".

Definition encode_none (text : string) : result (vector float) :=
  Ok (mkVector None (Raise not_iterable)).

(** Worlds to start from: an empty collection, reachable or not. *)
Definition fresh : world float mem := mkWorld (mkMem [] true) [].
Definition down : world float mem := mkWorld (mkMem [] false) [].

Definition hello : AddTextRequest.t := AddTextRequest.mk "Hello" "World".

(** The endpoint on the in-memory store and the array encoder. *)
Definition serve : AddTextRequest.t -> world float mem -> world float mem * outcome :=
  add_text str_oid encode_array mem_insert_one.

Definition post : json -> world float mem -> world float mem * reply :=
  post_add_text str_oid encode_array mem_insert_one.

(** The members of three bodies: the request of the running example, one
    without content, and one with empty strings. *)
Definition hello_world : gmap string json :=
  <["title" := JString "Hello"]> (<["content" := JString "World"]> ∅).

Definition only_title : gmap string json := <["title" := JString "Hello"]> ∅.

Definition empty_strings : gmap string json :=
  <["title" := JString EmptyString]> (<["content" := JString EmptyString]> ∅).

(** A model whose array converts to one list and iterates to another, and
    one whose [tolist] raises although iterating would work. *)
Definition encode_two_faced (text : string) : result (vector float) :=
  Ok (mkVector (Some (Ok [1%Z; 2%Z])) (Ok [3%Z])).

Definition encode_bad_tolist (text : string) : result (vector float) :=
  Ok (mkVector (Some (Raise not_iterable)) (Ok [3%Z])).

(** A health check, the running example, a body without content, and a
    request for a page that does not exist. *)
Definition traffic : list request :=
  [ mkRequest GET "/" JNull;
    mkRequest POST "/add-text" (JObject hello_world);
    mkRequest POST "/add-text" (JObject only_title);
    mkRequest GET "/texts" JNull;
    mkRequest POST "/add-text" (JObject hello_world) ].



End Double.

(** ** Properties of the service *)

(** *** Strings *)

Lemma append_length (a b : string) :
  String.length (a +:+ b) = String.length a + String.length b.
Proof.
  induction a as [|ch a IH]; simpl; [reflexivity|].
  rewrite IH. reflexivity.
Qed.

Lemma append_empty_r (a : string) : a +:+ EmptyString = a.
Proof.
  induction a as [|ch a IH]; [reflexivity|].
  change (String ch (a +:+ EmptyString) = String ch a).
  f_equal. exact IH.
Qed.

(** Framing the content with a blank line is not plain concatenation. *)
Lemma blob_not_concatenation (title content : string) :
  blob title content <> title +:+ content.
Proof.
  intros H. apply (f_equal String.length) in H.
  unfold blob in H. rewrite !append_length in H. simpl in H. lia.
Qed.

Section Properties.

Variable pyfloat : Type.
Variable ObjectId : Type.
Variable str_ObjectId : ObjectId -> string.
Variable model_encode : string -> result (vector pyfloat).
Variable store : Type.
Variable documents : store -> list (stored pyfloat ObjectId).
Variable insert_one :
  store -> document pyfloat -> store * result (InsertOneResult ObjectId).

Local Abbreviation title := AddTextRequest.title.
Local Abbreviation content := AddTextRequest.content.
Local Abbreviation run := (add_text str_ObjectId model_encode insert_one).

(** The endpoint, stage by stage: which collaborator answers decide the
    outcome, the store and the recorded calls. *)
Lemma add_text_stages (payload : AddTextRequest.t) (w : world pyfloat store) :
  run payload w =
    let text := blob (title payload) (content payload) in
    let encoded := (calls w ++ [Encode text])%list in
    match model_encode text with
    | Raise e => (mkWorld (texts_coll w) encoded, HTTPException 500 (str e))
    | Ok v =>
        match _to_list v with
        | Raise e =>
            (mkWorld (texts_coll w) encoded, HTTPException 500 (str e))
        | Ok l =>
            let doc := text_document (title payload) (content payload) l in
            let inserted := (encoded ++ [InsertOne doc])%list in
            match insert_one (texts_coll w) doc with
            | (s, Raise e) => (mkWorld s inserted, HTTPException 500 (str e))
            | (s, Ok res) =>
                (mkWorld s inserted,
                 Returned (AddTextResponse.mk
                             (str_ObjectId (result_inserted_id res))
                             (title payload)))
            end
        end
    end.
Proof.
  unfold add_text, try_except, bind, encode, eval, texts_coll_insert_one, ret.
  unfold blob, text_document. cbn.
  destruct (model_encode _) as [v|e]; [|reflexivity].
  destruct (_to_list v) as [l|e]; cbn; [|reflexivity].
  destruct (insert_one _ _) as [s [res|e]]; reflexivity.
Qed.

(** A call returns exactly when the three collaborator calls succeed. *)
Lemma add_text_returned (payload : AddTextRequest.t)
    (w w' : world pyfloat store) (response : AddTextResponse.t) :
  run payload w = (w', Returned response) ->
  exists v l res,
    model_encode (blob (title payload) (content payload)) = Ok v /\
    _to_list v = Ok l /\
    insert_one (texts_coll w)
      (text_document (title payload) (content payload) l)
      = (texts_coll w', Ok res) /\
    calls w' =
      (calls w ++
         [Encode (blob (title payload) (content payload));
          InsertOne (text_document (title payload) (content payload) l)])%list /\
    response = AddTextResponse.mk (str_ObjectId (result_inserted_id res))
                 (title payload).
Proof.
  rewrite add_text_stages. cbv zeta.
  destruct (model_encode _) as [v|e]; [|discriminate].
  destruct (_to_list v) as [l|e] eqn:El; [|discriminate].
  destruct (insert_one _ _) as [s [res|e]] eqn:Ei; [|discriminate].
  intros H. injection H as <- <-. exists v, l, res. cbn.
  rewrite <- app_assoc. auto.
Qed.

(** C1: with a store whose successful insert adds the given document
    under the identifier it returns, a call whose collaborators succeed
    returns, and every call that returns has persisted exactly one
    document, with the four fields title, content, embedding and model,
    the title and content of the request, the configured model name and
    the embedding the model gave for the text, and answers with the
    text of the store's identifier and the title of the request. *)
Theorem add_text_persists_document
    (Happends : insert_appends documents insert_one)
    (payload : AddTextRequest.t) (w : world pyfloat store) :
  (forall v l s res,
      model_encode (blob (title payload) (content payload)) = Ok v ->
      _to_list v = Ok l ->
      insert_one (texts_coll w)
        (text_document (title payload) (content payload) l) = (s, Ok res) ->
      exists w',
        run payload w =
          (w', Returned (AddTextResponse.mk
                           (str_ObjectId (result_inserted_id res))
                           (title payload)))) /\
  (forall w' response,
      run payload w = (w', Returned response) ->
      exists v embedding id,
        model_encode (blob (title payload) (content payload)) = Ok v /\
        _to_list v = Ok embedding /\
        documents (texts_coll w') =
          (documents (texts_coll w) ++
             [mkStored id
                [ ("title", VStr (title payload));
                  ("content", VStr (content payload));
                  ("embedding", VFloats embedding);
                  ("model", VStr MODEL_NAME) ]])%list /\
        response = AddTextResponse.mk (str_ObjectId id) (title payload)).
Proof.
  split.
  - intros v l s res Hv Hl Hi. rewrite add_text_stages. cbv zeta.
    rewrite Hv, Hl, Hi. eauto.
  - intros w' response Hrun.
    destruct (add_text_returned _ _ _ _ Hrun)
      as (v & l & res & Hv & Hl & Hi & _ & Hr).
    exists v, l, (result_inserted_id res).
    repeat split; try assumption.
    apply (Happends _ _ _ _ Hi).
Qed.

(** C2: in every call, the text given to the model's encode operation is
    the title, two line feeds, then the content; it is the only text
    encoded by the call, and it differs from the plain concatenation of
    title and content. *)
Theorem add_text_encodes_framed_text
    (payload : AddTextRequest.t) (w : world pyfloat store) :
  let text :=
    title payload +:+ String LF (String LF EmptyString) +:+ content payload in
  (exists rest,
      calls (fst (run payload w)) = (calls w ++ Encode text :: rest)%list /\
      forall other, ~ In (Encode other) rest) /\
  text <> title payload +:+ content payload.
Proof.
  cbn. split.
  - rewrite add_text_stages. cbv zeta. fold (blob (title payload) (content payload)).
    destruct (model_encode _) as [v|e]; cbn.
    + destruct (_to_list v) as [l|e]; cbn.
      * destruct (insert_one _ _) as [s [res|e]]; cbn;
          rewrite <- app_assoc; cbn;
          eexists; (split; [reflexivity|]);
          intros other [H|[]]; discriminate.
      * exists []. split; [reflexivity|]. intros other [].
    + exists []. split; [reflexivity|]. intros other [].
  - apply blob_not_concatenation.
Qed.

(** [_to_list] gives the floats of an array and of a list, in order. *)
Lemma to_list_of_dimension (n : nat) (v : vector pyfloat) :
  (exists data, length data = n /\ (v = ndarray data \/ v = pylist data)) ->
  exists l, _to_list v = Ok l /\ length l = n.
Proof.
  intros (data & Hlen & [-> | ->]); exists data; split; auto.
Qed.

(** One call adds nothing, or one well-formed document. *)
Lemma add_text_step
    (Hdim : fixed_dimension model_encode 384)
    (Happends : insert_appends documents insert_one)
    (Hatomic : insert_atomic documents insert_one)
    (payload : AddTextRequest.t) (w : world pyfloat store) :
  exists added,
    documents (texts_coll (fst (run payload w))) =
      (documents (texts_coll w) ++ added)%list /\
    Forall well_formed added.
Proof.
  rewrite add_text_stages. cbv zeta.
  destruct (model_encode _) as [v|e] eqn:Ev; cbn.
  - destruct (to_list_of_dimension 384 v (Hdim _ _ Ev)) as (l & Hl & Hlen).
    rewrite Hl.
    destruct (insert_one _ _) as [s [res|e]] eqn:Ei; cbn.
    + eexists. split; [apply (Happends _ _ _ _ Ei)|].
      constructor; [|constructor].
      split; [|reflexivity].
      unfold embedding_length. cbn. rewrite Hlen. reflexivity.
    + exists []. rewrite app_nil_r. split; [apply (Hatomic _ _ _ _ Ei)|constructor].
  - exists []. rewrite app_nil_r. split; [reflexivity|constructor].
Qed.

(** C3: when the model gives vectors of dimension 384 and the store adds
    exactly what is inserted, every document ingested by a sequence of
    requests has an embedding field that is a list of exactly 384 floats
    (and the configured model name), so two ingested documents with the
    same model field have embeddings of the same length. *)
Theorem ingested_embedding_has_384_floats
    (Hdim : fixed_dimension model_encode 384)
    (Happends : insert_appends documents insert_one)
    (Hatomic : insert_atomic documents insert_one)
    (w0 w : world pyfloat store) :
  ingests str_ObjectId model_encode insert_one w0 w ->
  exists added,
    documents (texts_coll w) = (documents (texts_coll w0) ++ added)%list /\
    (forall d, In d added ->
       exists l, get (fields d) "embedding" = Some (VFloats l) /\
                 length l = 384) /\
    (forall d1 d2, In d1 added -> In d2 added ->
       get (fields d1) "model" = get (fields d2) "model" ->
       embedding_length d1 = embedding_length d2).
Proof.
  intros Hing.
  assert (exists added,
    documents (texts_coll w) = (documents (texts_coll w0) ++ added)%list /\
    Forall well_formed added) as (added & Hdocs & Hwf).
  { induction Hing as [|w payload Hing (added & Hdocs & Hwf)].
    - exists []. rewrite app_nil_r. split; [reflexivity|constructor].
    - destruct (add_text_step Hdim Happends Hatomic payload w)
        as (more & Hmore & Hwf').
      exists (added ++ more)%list. split.
      + rewrite Hmore, Hdocs, app_assoc. reflexivity.
      + apply Forall_app. split; assumption. }
  exists added. split; [exact Hdocs|].
  rewrite Forall_forall in Hwf. split.
  - intros d Hd. destruct (Hwf d) as [Hlen _].
    { apply list_elem_of_In. exact Hd. }
    unfold embedding_length in Hlen.
    destruct (get (fields d) "embedding") as [[s|l]|]; try discriminate.
    exists l. split; [reflexivity|]. congruence.
  - intros d1 d2 H1 H2 _.
    destruct (Hwf d1) as [-> _]; [apply list_elem_of_In; exact H1|].
    destruct (Hwf d2) as [-> _]; [apply list_elem_of_In; exact H2|].
    reflexivity.
Qed.

(** C4: when the embedding computation, the conversion of the vector or
    the insert raises an exception [e], the call raises [HTTPException]
    with status 500 and [str(e)] as its detail, which therefore contains
    the text of the cause; conversely every [HTTPException] of the
    endpoint has status 500 and the text of such a failure as detail, so
    the class of the exception is not exposed. *)
Theorem add_text_failure_is_500
    (payload : AddTextRequest.t) (w : world pyfloat store) :
  (forall e,
      fails_with model_encode insert_one payload w e ->
      exists detail,
        snd (run payload w) = HTTPException 500 detail /\
        detail = str e /\
        exists before after, detail = before +:+ str e +:+ after) /\
  (forall code detail,
      snd (run payload w) = HTTPException code detail ->
      code = 500 /\
      exists e, fails_with model_encode insert_one payload w e /\
                detail = str e).
Proof.
  split.
  - intros e Hfail. exists (str e). split; [|split].
    + rewrite add_text_stages. cbv zeta.
      destruct Hfail as [He | v Hv Hl | v l Hv Hl Hi].
      * rewrite He. reflexivity.
      * rewrite Hv, Hl. reflexivity.
      * rewrite Hv, Hl.
        destruct (insert_one _ _) as [s r]. cbn in Hi. subst r. reflexivity.
    + reflexivity.
    + exists EmptyString, EmptyString. cbn. rewrite append_empty_r. reflexivity.
  - intros code detail. rewrite add_text_stages. cbv zeta.
    destruct (model_encode _) as [v|e] eqn:Ev; cbn.
    + destruct (_to_list v) as [l|e] eqn:El; cbn.
      * destruct (insert_one _ _) as [s [res|e]] eqn:Ei; cbn; [discriminate|].
        intros H. injection H as <- <-. split; [reflexivity|].
        exists e. split; [|reflexivity].
        apply (fails_insert _ _ _ _ _ _ _ _ v l Ev El). rewrite Ei. reflexivity.
      * intros H. injection H as <- <-. split; [reflexivity|].
        exists e. split; [|reflexivity].
        apply (fails_to_list _ _ _ _ _ _ _ _ v Ev El).
    + intros H. injection H as <- <-. split; [reflexivity|].
      exists e. split; [|reflexivity]. apply fails_encode. exact Ev.
Qed.

(** C5: when the insert raises, the call raises [HTTPException] with
    status 500; the insert is the only operation the call performs on
    the store, so the store is left in the state of the failed insert,
    and with a store whose failed insert changes nothing the documents
    of the collection are those from before the call. *)
Theorem add_text_insert_failure_keeps_collection
    (Hatomic : insert_atomic documents insert_one)
    (payload : AddTextRequest.t) (w : world pyfloat store)
    (v : vector pyfloat) (l : list pyfloat) (s : store) (e : Exception) :
  model_encode (blob (title payload) (content payload)) = Ok v ->
  _to_list v = Ok l ->
  insert_one (texts_coll w)
    (text_document (title payload) (content payload) l) = (s, Raise e) ->
  snd (run payload w) = HTTPException 500 (str e) /\
  texts_coll (fst (run payload w)) = s /\
  documents (texts_coll (fst (run payload w))) = documents (texts_coll w).
Proof.
  intros Hv Hl Hi. rewrite add_text_stages. cbv zeta.
  rewrite Hv, Hl, Hi. cbn. repeat split.
  apply (Hatomic _ _ _ _ Hi).
Qed.

(** C7: with a store that adds what is inserted and gives each insert an
    identifier not yet in the collection, two successful calls with the
    same request, one after the other, add two stored documents with the
    same fields and two different identifiers; nothing is deduplicated. *)
Theorem add_text_twice_two_documents
    (Happends : insert_appends documents insert_one)
    (Hfresh : insert_fresh documents insert_one)
    (payload : AddTextRequest.t) (w w1 w2 : world pyfloat store)
    (r1 r2 : AddTextResponse.t) :
  run payload w = (w1, Returned r1) ->
  run payload w1 = (w2, Returned r2) ->
  exists id1 id2 doc,
    id1 <> id2 /\
    mkStored id1 doc <> mkStored id2 doc /\
    documents (texts_coll w2) =
      (documents (texts_coll w) ++ [mkStored id1 doc; mkStored id2 doc])%list /\
    r1 = AddTextResponse.mk (str_ObjectId id1) (title payload) /\
    r2 = AddTextResponse.mk (str_ObjectId id2) (title payload).
Proof.
  intros H1 H2.
  destruct (add_text_returned _ _ _ _ H1)
    as (v1 & l1 & res1 & Hv1 & Hl1 & Hi1 & _ & ->).
  destruct (add_text_returned _ _ _ _ H2)
    as (v2 & l2 & res2 & Hv2 & Hl2 & Hi2 & _ & ->).
  assert (l2 = l1) as -> by congruence.
  pose proof (Happends _ _ _ _ Hi1) as Hd1.
  pose proof (Happends _ _ _ _ Hi2) as Hd2.
  pose proof (Hfresh _ _ _ _ Hi2) as Hnew.
  assert (result_inserted_id res1 <> result_inserted_id res2) as Hne.
  { intros Heq. apply Hnew. rewrite Hd1, map_app, <- Heq.
    apply in_or_app. right. left. reflexivity. }
  exists (result_inserted_id res1), (result_inserted_id res2),
    (text_document (title payload) (content payload) l1).
  repeat split; try assumption.
  - intros Heq. apply Hne. congruence.
  - rewrite Hd2, Hd1, <- app_assoc. reflexivity.
Qed.

(** C6 (amended): the schema asks for text, not for non-empty text: a
    body whose title and content are JSON strings, empty or not, passes
    validation, and when the collaborators succeed the call answers 200
    and persists the title and content as given. *)
Theorem add_text_accepts_any_text
    (Happends : insert_appends documents insert_one)
    (members : gmap string json) (t c : string) (w : world pyfloat store)
    (v : vector pyfloat) (l : list pyfloat) (s : store)
    (res : InsertOneResult ObjectId) :
  members !! "title" = Some (JString t) ->
  members !! "content" = Some (JString c) ->
  model_encode (blob t c) = Ok v ->
  _to_list v = Ok l ->
  insert_one (texts_coll w) (text_document t c l) = (s, Ok res) ->
  validate (JObject members) = Some (AddTextRequest.mk t c) /\
  exists w',
    post_add_text str_ObjectId model_encode insert_one (JObject members) w =
      (w', Reply200 (AddTextResponse.mk
                       (str_ObjectId (result_inserted_id res)) t)) /\
    documents (texts_coll w') =
      (documents (texts_coll w) ++
         [mkStored (result_inserted_id res) (text_document t c l)])%list.
Proof.
  intros Ht Hc Hv Hl Hi.
  assert (validate (JObject members) = Some (AddTextRequest.mk t c)) as Hval.
  { unfold validate, str_field. rewrite Ht, Hc. reflexivity. }
  split; [exact Hval|].
  unfold post_add_text. rewrite Hval, add_text_stages. cbv zeta. cbn.
  rewrite Hv, Hl, Hi. cbn. eexists. split; [reflexivity|].
  cbn. apply (Happends _ _ _ _ Hi).
Qed.

(** C8: a body in which title or content is missing or is not a string
    is answered with status 422 and the endpoint is not run: no call to
    the model is recorded and the store is the one from before. *)
Theorem invalid_body_rejected_before_add_text
    (members : gmap string json) (name : string) (w : world pyfloat store) :
  name = "title" \/ name = "content" ->
  (forall text, members !! name <> Some (JString text)) ->
  let r := post_add_text str_ObjectId model_encode insert_one
             (JObject members) w in
  status (snd r) = 422 /\
  calls (fst r) = calls w /\
  texts_coll (fst r) = texts_coll w.
Proof.
  intros Hname Hbad.
  assert (validate (JObject members) = None) as Hval.
  { unfold validate, str_field.
    destruct Hname as [-> | ->].
    - destruct (members !! "title") as [[| | |text| |]|] eqn:E;
        try reflexivity.
      exfalso. apply (Hbad text). reflexivity.
    - destruct (members !! "content") as [[| | |text| |]|] eqn:E;
        try (destruct (members !! "title") as [[]|]; reflexivity).
      exfalso. apply (Hbad text). reflexivity. }
  unfold post_add_text. rewrite Hval. cbn. auto.
Qed.

(** C10: the framing is not injective.  The requests ("a", "b\n\nc") and
    ("a\n\nb", "c") differ and are framed into the same text, so the
    model is given the same text and, when both calls succeed on a store
    that adds what is inserted, the two persisted documents carry the
    same embedding under different titles and contents. *)
Theorem framing_not_injective
    (Happends : insert_appends documents insert_one)
    (w1 w1' w2 w2' : world pyfloat store) (r1 r2 : AddTextResponse.t) :
  run split_early w1 = (w1', Returned r1) ->
  run split_late w2 = (w2', Returned r2) ->
  split_early <> split_late /\
  blob (title split_early) (content split_early) =
    blob (title split_late) (content split_late) /\
  exists id1 id2 embedding,
    documents (texts_coll w1') =
      (documents (texts_coll w1) ++
         [mkStored id1
            (text_document (title split_early)
               (content split_early) embedding)])%list /\
    documents (texts_coll w2') =
      (documents (texts_coll w2) ++
         [mkStored id2
            (text_document (title split_late)
               (content split_late) embedding)])%list /\
    title split_early <> title split_late /\
    content split_early <> content split_late.
Proof.
  intros H1 H2.
  destruct (add_text_returned _ _ _ _ H1)
    as (v1 & l1 & res1 & Hv1 & Hl1 & Hi1 & _ & _).
  destruct (add_text_returned _ _ _ _ H2)
    as (v2 & l2 & res2 & Hv2 & Hl2 & Hi2 & _ & _).
  split; [discriminate|]. split; [reflexivity|].
  change (blob (title split_late) (content split_late))
    with (blob (title split_early) (content split_early)) in Hv2.
  assert (l2 = l1) as -> by congruence.
  exists (result_inserted_id res1), (result_inserted_id res2), l1.
  split; [apply (Happends _ _ _ _ Hi1)|].
  split; [apply (Happends _ _ _ _ Hi2)|].
  split; discriminate.
Qed.

End Properties.

(** C9: when the connection string is in neither the environment nor the
    [.env] file, start-up raises and the process does not start; when it
    is there and not empty, start-up goes through, and a database name or
    collection name that is absent is replaced by "vector_db" or "texts". *)
Theorem startup_requires_uri_and_defaults (dotenv env : gmap string string) :
  (env !! "MONGODB_URI" = None -> dotenv !! "MONGODB_URI" = None ->
   Config.startup dotenv env = Raise Config.missing_uri) /\
  (forall u,
      Config.load_dotenv dotenv env !! "MONGODB_URI" = Some u ->
      u <> EmptyString ->
      exists settings,
        Config.startup dotenv env = Ok settings /\ Config.uri settings = u) /\
  (forall settings,
      Config.startup dotenv env = Ok settings ->
      (env !! "DB_NAME" = None -> dotenv !! "DB_NAME" = None ->
       Config.db_name settings = "vector_db") /\
      (env !! "TEXT_COLLECTION" = None -> dotenv !! "TEXT_COLLECTION" = None ->
       Config.text_collection settings = "texts")).
Proof.
  assert (forall key, env !! key = None -> dotenv !! key = None ->
            Config.load_dotenv dotenv env !! key = None) as Habsent.
  { intros key He Hd. unfold Config.load_dotenv.
    apply lookup_union_None. split; assumption. }
  unfold Config.startup, Config.configure, Config.MONGODB_URI, Config.DB_NAME,
    Config.TEXT_COLLECTION, Config.getenv, Config.getenv_default.
  repeat split.
  - intros He Hd. rewrite (Habsent _ He Hd). reflexivity.
  - intros u Hu Hne. rewrite Hu.
    destruct u as [|ch u]; [contradiction|]. cbn. eexists. split; reflexivity.
  - intros He Hd. rewrite (Habsent _ He Hd) in H.
    destruct (Config.load_dotenv dotenv env !! "MONGODB_URI") as [[|ch u]|];
      cbn in H; try discriminate.
    injection H as <-. reflexivity.
  - intros He Hd. rewrite (Habsent _ He Hd) in H.
    destruct (Config.load_dotenv dotenv env !! "MONGODB_URI") as [[|ch u]|];
      cbn in H; try discriminate.
    injection H as <-. reflexivity.
Qed.

Lemma startup_requires_uri_and_defaults_witness :
  Config.startup ∅ (<["DB_NAME" := "prod"]> ∅) = Raise Config.missing_uri /\
  (exists settings,
      Config.startup (<["MONGODB_URI" := "mongodb://localhost:27017"]> ∅) ∅
        = Ok settings /\
      Config.db_name settings = "vector_db" /\
      Config.text_collection settings = "texts").
Proof.
  split.
  - apply (proj1 (startup_requires_uri_and_defaults ∅ (<["DB_NAME" := "prod"]> ∅)));
      reflexivity.
  - exists (Config.mkSettings "mongodb://localhost:27017" "vector_db" "texts").
    assert (Config.startup (<["MONGODB_URI" := "mongodb://localhost:27017"]> ∅) ∅
            = Ok (Config.mkSettings "mongodb://localhost:27017"
                    "vector_db" "texts")) as Hstart
      by (vm_compute; reflexivity).
    destruct (proj2 (proj2 (startup_requires_uri_and_defaults
                (<["MONGODB_URI" := "mongodb://localhost:27017"]> ∅) ∅))
                _ Hstart) as [Hdb Hcoll].
    split; [exact Hstart|].
    split; [apply Hdb | apply Hcoll]; reflexivity.
Defined.

(** ** The test doubles meet the contracts *)

Lemma double_appends : insert_appends Double.docs Double.mem_insert_one.
Proof.
  intros s doc s' res H. unfold Double.mem_insert_one in H.
  destruct (Double.online s); [|discriminate].
  injection H as <- <-. reflexivity.
Qed.

Lemma double_atomic : insert_atomic Double.docs Double.mem_insert_one.
Proof.
  intros s doc s' e H. unfold Double.mem_insert_one in H.
  destruct (Double.online s); [discriminate|].
  injection H as <- _. reflexivity.
Qed.

Lemma max_id_bound (ids : list N) (id : N) :
  In id ids -> (id <= fold_right N.max 0 ids)%N.
Proof.
  induction ids as [|x ids IH]; intros Hin; [destruct Hin|].
  cbn. destruct Hin as [-> | Hin]; [lia|].
  specialize (IH Hin). lia.
Qed.

Lemma double_fresh : insert_fresh Double.docs Double.mem_insert_one.
Proof.
  intros s doc s' res H Hin. unfold Double.mem_insert_one in H.
  destruct (Double.online s); [|discriminate].
  injection H as _ <-. cbn in Hin. unfold Double.next_id in Hin.
  apply max_id_bound in Hin. lia.
Qed.

Lemma double_dimension : fixed_dimension Double.encode_array 384.
Proof.
  intros text v H.
  exists (repeat (Z.of_nat (String.length text)) 384).
  split; [apply repeat_length|].
  left. unfold Double.encode_array in H.
  exact (f_equal (fun r => match r with Ok u => u | Raise _ => v end) (eq_sym H)).
Qed.

(** ** The endpoint on concrete requests *)

(** The running example: the answer carries a 24-digit identifier and the
    title, and the stored content is the content of the request. *)
Example post_hello_world :
  let r := Double.post (JObject Double.hello_world) Double.fresh in
  snd r = Reply200 (AddTextResponse.mk "000000000000000000000001" "Hello") /\
  map (fun d => get (fields d) "content") (Double.docs (texts_coll (fst r)))
    = [Some (VStr "World")] /\
  map embedding_length (Double.docs (texts_coll (fst r))) = [Some 384].
Proof.
  vm_compute. repeat split; reflexivity.
Qed.

(** A model that answers with a plain list is served by the [list(...)]
    branch of [_to_list]. *)
Example plain_list_is_stored :
  map embedding_length
    (Double.docs (texts_coll (fst
       (add_text Double.str_oid Double.encode_list Double.mem_insert_one
          Double.hello Double.fresh))))
    = [Some 384].
Proof.
  vm_compute. reflexivity.
Qed.

(** A failure of the conversion and a failure of the insert are answered
    like a failure of the model. *)
Example conversion_failure_is_500 :
  snd (add_text Double.str_oid Double.encode_none Double.mem_insert_one
         Double.hello Double.fresh)
    = HTTPException 500 "'NoneType' object is not iterable".
Proof.
  vm_compute. reflexivity.
Qed.

Example store_down_is_500 :
  snd (Double.serve Double.hello Double.down)
    = HTTPException 500 "localhost:27017: connection refused".
Proof.
  vm_compute. reflexivity.
Qed.

(** ** The theorems on concrete requests *)

Lemma add_text_persists_document_witness :
  exists v embedding id,
    Double.encode_array (blob "Hello" "World") = Ok v /\
    _to_list v = Ok embedding /\
    Double.docs (texts_coll (fst (Double.serve Double.hello Double.fresh))) =
      ([] ++ [mkStored id
                [ ("title", VStr "Hello"); ("content", VStr "World");
                  ("embedding", VFloats embedding);
                  ("model", VStr MODEL_NAME) ]])%list /\
    AddTextResponse.mk "000000000000000000000001" "Hello" =
      AddTextResponse.mk (Double.str_oid id) "Hello".
Proof.
  apply (proj2 (add_text_persists_document _ _ Double.str_oid
                  Double.encode_array _ Double.docs Double.mem_insert_one
                  double_appends Double.hello Double.fresh)
           (fst (Double.serve Double.hello Double.fresh))
           (AddTextResponse.mk "000000000000000000000001" "Hello")).
  vm_compute. reflexivity.
Defined.

Lemma ingested_embedding_has_384_floats_witness :
  exists added,
    Double.docs (texts_coll
      (fst (Double.serve Double.hello
              (fst (Double.serve Double.hello Double.fresh))))) =
      ([] ++ added)%list /\
    (forall d, In d added ->
       exists l, get (fields d) "embedding" = Some (VFloats l) /\
                 length l = 384) /\
    (forall d1 d2, In d1 added -> In d2 added ->
       get (fields d1) "model" = get (fields d2) "model" ->
       embedding_length d1 = embedding_length d2).
Proof.
  apply (ingested_embedding_has_384_floats _ _ Double.str_oid
           Double.encode_array _ Double.docs Double.mem_insert_one
           double_dimension double_appends double_atomic Double.fresh).
  apply ingests_step, ingests_step, ingests_refl.
Defined.

Lemma add_text_failure_is_500_witness :
  exists detail,
    snd (add_text Double.str_oid Double.encode_failing Double.mem_insert_one
           Double.hello Double.fresh) = HTTPException 500 detail /\
    detail = "out of memory" /\
    exists before after, detail = before +:+ "out of memory" +:+ after.
Proof.
  apply (proj1 (add_text_failure_is_500 _ _ Double.str_oid
                  Double.encode_failing _ Double.mem_insert_one
                  Double.hello Double.fresh) Double.out_of_memory).
  apply fails_encode. reflexivity.
Defined.

Lemma add_text_insert_failure_keeps_collection_witness :
  snd (Double.serve Double.hello Double.down) =
    HTTPException 500 "localhost:27017: connection refused" /\
  texts_coll (fst (Double.serve Double.hello Double.down)) =
    Double.mkMem [] false /\
  Double.docs (texts_coll (fst (Double.serve Double.hello Double.down))) = [].
Proof.
  apply (add_text_insert_failure_keeps_collection _ _ Double.str_oid
           Double.encode_array _ Double.docs Double.mem_insert_one
           double_atomic Double.hello Double.down
           (ndarray (repeat 12%Z 384)) (repeat 12%Z 384)
           (Double.mkMem [] false) Double.unreachable);
    reflexivity.
Defined.

(** C6, as stated, fails: a body with an empty title and an empty content
    is answered with status 200 and a document with both fields empty is
    in the collection afterwards. *)
Lemma empty_title_and_content_ingested :
  let r := Double.post (JObject Double.empty_strings) Double.fresh in
  snd r = Reply200 (AddTextResponse.mk "000000000000000000000001" EmptyString) /\
  map (fun d => (get (fields d) "title", get (fields d) "content"))
      (Double.docs (texts_coll (fst r)))
    = [(Some (VStr EmptyString), Some (VStr EmptyString))].
Proof.
  vm_compute. split; reflexivity.
Qed.

Lemma add_text_accepts_any_text_witness :
  validate (JObject Double.empty_strings) =
    Some (AddTextRequest.mk EmptyString EmptyString) /\
  exists w',
    Double.post (JObject Double.empty_strings) Double.fresh =
      (w', Reply200 (AddTextResponse.mk (Double.str_oid 1%N) EmptyString)) /\
    Double.docs (texts_coll w') =
      ([] ++ [mkStored 1%N
                (text_document EmptyString EmptyString (repeat 2%Z 384))])%list.
Proof.
  apply (add_text_accepts_any_text _ _ Double.str_oid Double.encode_array _
           Double.docs Double.mem_insert_one double_appends
           Double.empty_strings EmptyString EmptyString Double.fresh
           (ndarray (repeat 2%Z 384)) (repeat 2%Z 384)
           (Double.mkMem
              [mkStored 1%N
                 (text_document EmptyString EmptyString (repeat 2%Z 384))] true)
           (mkInsertOneResult 1%N));
    vm_compute; reflexivity.
Defined.

Lemma add_text_twice_two_documents_witness :
  exists id1 id2 doc,
    id1 <> id2 /\
    mkStored id1 doc <> mkStored id2 doc /\
    Double.docs (texts_coll
      (fst (Double.serve Double.hello
              (fst (Double.serve Double.hello Double.fresh))))) =
      ([] ++ [mkStored id1 doc; mkStored id2 doc])%list /\
    AddTextResponse.mk "000000000000000000000001" "Hello" =
      AddTextResponse.mk (Double.str_oid id1) "Hello" /\
    AddTextResponse.mk "000000000000000000000002" "Hello" =
      AddTextResponse.mk (Double.str_oid id2) "Hello".
Proof.
  apply (add_text_twice_two_documents _ _ Double.str_oid Double.encode_array _
           Double.docs Double.mem_insert_one double_appends double_fresh
           Double.hello Double.fresh
           (fst (Double.serve Double.hello Double.fresh))
           (fst (Double.serve Double.hello
                   (fst (Double.serve Double.hello Double.fresh)))));
    vm_compute; reflexivity.
Defined.

Lemma invalid_body_rejected_before_add_text_witness :
  status (snd (Double.post (JObject Double.only_title) Double.fresh)) = 422 /\
  calls (fst (Double.post (JObject Double.only_title) Double.fresh)) = [] /\
  texts_coll (fst (Double.post (JObject Double.only_title) Double.fresh)) =
    Double.mkMem [] true.
Proof.
  apply (invalid_body_rejected_before_add_text _ _ Double.str_oid
           Double.encode_array _ Double.mem_insert_one
           Double.only_title "content" Double.fresh).
  - right. reflexivity.
  - intros text. vm_compute. discriminate.
Defined.

Lemma framing_not_injective_witness :
  split_early <> split_late /\
  blob "a" (AddTextRequest.content split_early) =
    blob (AddTextRequest.title split_late) "c" /\
  exists id1 id2 embedding,
    Double.docs (texts_coll (fst (Double.serve split_early Double.fresh))) =
      ([] ++ [mkStored id1
                (text_document "a" (AddTextRequest.content split_early)
                   embedding)])%list /\
    Double.docs (texts_coll (fst (Double.serve split_late Double.fresh))) =
      ([] ++ [mkStored id2
                (text_document (AddTextRequest.title split_late) "c"
                   embedding)])%list /\
    "a" <> AddTextRequest.title split_late /\
    AddTextRequest.content split_early <> "c".
Proof.
  apply (framing_not_injective _ _ Double.str_oid Double.encode_array _
           Double.docs Double.mem_insert_one double_appends
           Double.fresh (fst (Double.serve split_early Double.fresh))
           Double.fresh (fst (Double.serve split_late Double.fresh))
           (AddTextResponse.mk "000000000000000000000001" "a")
           (AddTextResponse.mk "000000000000000000000001"
              (AddTextRequest.title split_late)));
    vm_compute; reflexivity.
Defined.

(** ** Further behaviour of the endpoint and of the application *)

Section Behaviour.

Variable pyfloat : Type.
Variable ObjectId : Type.
Variable str_ObjectId : ObjectId -> string.
Variable model_encode : string -> result (vector pyfloat).
Variable store : Type.
Variable documents : store -> list (stored pyfloat ObjectId).
Variable insert_one :
  store -> document pyfloat -> store * result (InsertOneResult ObjectId).

Local Abbreviation title := AddTextRequest.title.
Local Abbreviation content := AddTextRequest.content.
Local Abbreviation run := (add_text str_ObjectId model_encode insert_one).
Local Abbreviation stages :=
  (add_text_stages _ _ str_ObjectId model_encode _ insert_one).
Local Abbreviation text_of payload := (blob (title payload) (content payload)).

(** X1: when the model raises, or the conversion of its vector raises,
    [insert_one] is never called: the store is the very state from before
    the call, the only call recorded is the one to the model, and the
    endpoint raises [HTTPException] 500 with the text of the exception. *)
Theorem early_failure_skips_insert
    (payload : AddTextRequest.t) (w : world pyfloat store) (e : Exception) :
  model_encode (text_of payload) = Raise e \/
  (exists v, model_encode (text_of payload) = Ok v /\ _to_list v = Raise e) ->
  run payload w =
    (mkWorld (texts_coll w) (calls w ++ [Encode (text_of payload)])%list,
     HTTPException 500 (str e)).
Proof.
  intros [He | (v & Hv & Hl)]; rewrite stages; cbv zeta.
  - rewrite He. reflexivity.
  - rewrite Hv, Hl. reflexivity.
Qed.

(** X2: what a call sends to the collaborators depends on the request
    alone: there is one list of calls, the call to the model followed by
    at most one insert of the document built from the request, that the
    endpoint appends to the record in every world, whatever the store
    holds and however the insert ends. *)
Theorem collaborator_calls_depend_on_request_only
    (payload : AddTextRequest.t) :
  exists new,
    (new = [Encode (text_of payload)] \/
     exists l,
       new = [Encode (text_of payload);
              InsertOne (text_document (title payload) (content payload) l)]) /\
    forall w : world pyfloat store,
      calls (fst (run payload w)) = (calls w ++ new)%list.
Proof.
  destruct (model_encode (text_of payload)) as [v|e] eqn:Ev.
  - destruct (_to_list v) as [l|e] eqn:El.
    + eexists. split; [right; exists l; reflexivity|].
      intros w. rewrite stages. cbv zeta. rewrite Ev, El.
      destruct (insert_one _ _) as [s [res|e]]; cbn;
        rewrite <- app_assoc; reflexivity.
    + eexists. split; [left; reflexivity|].
      intros w. rewrite stages. cbv zeta. rewrite Ev, El. reflexivity.
  - eexists. split; [left; reflexivity|].
    intros w. rewrite stages. cbv zeta. rewrite Ev. reflexivity.
Qed.

(** X3: [_to_list] uses [tolist] whenever the vector has it and never
    falls back on iterating: the list that [tolist] gives is the embedding
    handed to the store, and an exception of [tolist] ends the call with
    status 500 before any insert, whatever iterating the vector would
    have given. *)
Theorem tolist_takes_precedence
    (payload : AddTextRequest.t) (w : world pyfloat store)
    (v : vector pyfloat) (called : result (list pyfloat)) :
  model_encode (text_of payload) = Ok v ->
  tolist v = Some called ->
  match called with
  | Ok l =>
      calls (fst (run payload w)) =
        (calls w ++
           [Encode (text_of payload);
            InsertOne (text_document (title payload) (content payload) l)])%list
  | Raise e =>
      run payload w =
        (mkWorld (texts_coll w) (calls w ++ [Encode (text_of payload)])%list,
         HTTPException 500 (str e))
  end.
Proof.
  intros Hv Ht. rewrite stages. cbv zeta. rewrite Hv.
  unfold _to_list. rewrite Ht. destruct called as [l|e]; [|reflexivity].
  destruct (insert_one _ _) as [s [res|e]]; cbn;
    rewrite <- app_assoc; reflexivity.
Qed.

(** The three ways a request to [POST /add-text] can end, with what each
    does to the collection. *)
Lemma post_add_text_cases
    (Happends : insert_appends documents insert_one)
    (Hatomic : insert_atomic documents insert_one)
    (body : json) (w : world pyfloat store) :
  let r := post_add_text str_ObjectId model_encode insert_one body w in
  (validate body = None /\ r = (w, Reply422)) \/
  (exists payload,
      validate body = Some payload /\
      ((exists e,
           snd r = ReplyError 500 (str e) /\
           documents (texts_coll (fst r)) = documents (texts_coll w)) \/
       (exists res l,
           insert_one (texts_coll w)
             (text_document (title payload) (content payload) l)
             = (texts_coll (fst r), Ok res) /\
           documents (texts_coll (fst r)) =
             (documents (texts_coll w) ++
                [mkStored (result_inserted_id res)
                   (text_document (title payload) (content payload) l)])%list /\
           snd r = Reply200 (AddTextResponse.mk
                               (str_ObjectId (result_inserted_id res))
                               (title payload))))).
Proof.
  cbv zeta. unfold post_add_text.
  destruct (validate body) as [payload|]; [right|left; split; reflexivity].
  exists payload. split; [reflexivity|].
  rewrite stages. cbv zeta.
  destruct (model_encode _) as [v|e]; cbn.
  - destruct (_to_list v) as [l|e]; cbn.
    + destruct (insert_one _ _) as [s [res|e]] eqn:Ei; cbn.
      * right. exists res, l.
        split; [exact Ei|]. split; [apply (Happends _ _ _ _ Ei)|reflexivity].
      * left. exists e. split; [reflexivity|]. apply (Hatomic _ _ _ _ Ei).
    + left. exists e. split; reflexivity.
  - left. exists e. split; reflexivity.
Qed.

(** X4: a request to [POST /add-text] is answered with status 200, 422 or
    500 and nothing else; 422 exactly when the body fails validation; and
    with a store that adds what is inserted and whose failed insert
    changes nothing, status 200 comes with exactly one more document in
    the collection and every other status with the collection unchanged. *)
Theorem reply_status_all_or_nothing
    (Happends : insert_appends documents insert_one)
    (Hatomic : insert_atomic documents insert_one)
    (body : json) (w : world pyfloat store) :
  let r := post_add_text str_ObjectId model_encode insert_one body w in
  (status (snd r) = 422 <-> validate body = None) /\
  ((status (snd r) = 200 /\
    exists d, documents (texts_coll (fst r)) =
                (documents (texts_coll w) ++ [d])%list) \/
   ((status (snd r) = 422 \/ status (snd r) = 500) /\
    documents (texts_coll (fst r)) = documents (texts_coll w))).
Proof.
  cbv zeta.
  destruct (post_add_text_cases Happends Hatomic body w)
    as [[Hval Hr] | (payload & Hval & [(e & Hs & Hd) | (res & l & _ & Hd & Hs)])].
  - rewrite Hr. cbn. split; [tauto|]. right. split; [left|]; reflexivity.
  - rewrite Hs, Hval. cbn. split; [split; discriminate|].
    right. split; [right; reflexivity|exact Hd].
  - rewrite Hs, Hval. cbn. split; [split; discriminate|].
    left. split; [reflexivity|]. eexists. exact Hd.
Qed.

(** One request to the application adds to the collection the document of
    its successful [add_text], if there is one, and nothing else. *)
Lemma app_step
    (Happends : insert_appends documents insert_one)
    (Hatomic : insert_atomic documents insert_one)
    (req : request) (w : world pyfloat store) :
  let r := app str_ObjectId model_encode insert_one req w in
  (documents (texts_coll (fst r)) = documents (texts_coll w) /\
   successes [snd r] = []) \/
  (exists res doc t,
      insert_one (texts_coll w) doc = (texts_coll (fst r), Ok res) /\
      get doc "title" = Some (VStr t) /\
      documents (texts_coll (fst r)) =
        (documents (texts_coll w) ++ [mkStored (result_inserted_id res) doc])%list /\
      successes [snd r] =
        [AddTextResponse.mk (str_ObjectId (result_inserted_id res)) t]).
Proof.
  cbv zeta. unfold app.
  destruct (verb req); try (left; split; reflexivity).
  - destruct (String.eqb (path req) "/"); left; split; reflexivity.
  - destruct (String.eqb (path req) "/add-text"); [|left; split; reflexivity].
    destruct (post_add_text_cases Happends Hatomic (body req) w)
      as [[_ Hr] | (payload & _ & [(e & Hs & Hd) | (res & l & Hi & Hd & Hs)])];
      destruct (post_add_text _ _ _ _ _) as [w' r]; cbn in *.
    + injection Hr as -> ->. left. split; reflexivity.
    + subst r. left. split; [exact Hd|reflexivity].
    + subst r. right. eexists res, _, (title payload).
      split; [exact Hi|]. split; [reflexivity|]. split; [exact Hd|reflexivity].
Qed.

Lemma successes_cons (a : response) (l : list response) :
  successes (a :: l) = (successes [a] ++ successes l)%list.
Proof.
  destruct a as [m|[r| |code detail]|]; reflexivity.
Qed.

(** X5: over any sequence of requests to the application, whatever their
    methods, paths and bodies, the collection only grows at its end: the
    documents from before stay in place, and the documents added are, in
    order, one for each request that [add_text] answered by returning,
    stored under the identifier and with the title of that answer.  The
    health check and unrouted requests add nothing. *)
Theorem served_requests_only_append
    (Happends : insert_appends documents insert_one)
    (Hatomic : insert_atomic documents insert_one)
    (reqs : list request) (w : world pyfloat store) :
  let r := serve_all str_ObjectId model_encode insert_one reqs w in
  exists added,
    documents (texts_coll (fst r)) = (documents (texts_coll w) ++ added)%list /\
    map (fun d => (str_ObjectId (_id d), get (fields d) "title")) added =
      map (fun a => (AddTextResponse.inserted_id a,
                     Some (VStr (AddTextResponse.title a))))
          (successes (snd r)).
Proof.
  cbv zeta. revert w.
  induction reqs as [|req rest IH]; intros w.
  - exists []. cbn. rewrite app_nil_r. split; reflexivity.
  - cbn [serve_all].
    pose proof (app_step Happends Hatomic req w) as Hstep. cbv zeta in Hstep.
    destruct (app str_ObjectId model_encode insert_one req w) as [w1 a].
    specialize (IH w1).
    destruct (serve_all str_ObjectId model_encode insert_one rest w1)
      as [w2 answers].
    cbn [fst snd] in *. destruct IH as (added & Hdocs & Hmap).
    rewrite successes_cons, map_app, <- Hmap.
    destruct Hstep as [[Hsame ->] | (res & doc & t & _ & Ht & Hmore & ->)].
    + exists added. split; [congruence|reflexivity].
    + exists (mkStored (result_inserted_id res) doc :: added). split.
      * rewrite Hdocs, Hmore, <- app_assoc. reflexivity.
      * cbn. rewrite Ht. reflexivity.
Qed.

(** X6: with a store that gives each insert an identifier not yet in the
    collection, identifiers stay pairwise distinct: a collection whose
    documents have distinct identifiers still has after any sequence of
    requests. *)
Theorem identifiers_stay_distinct
    (Happends : insert_appends documents insert_one)
    (Hatomic : insert_atomic documents insert_one)
    (Hfresh : insert_fresh documents insert_one)
    (reqs : list request) (w : world pyfloat store) :
  NoDup (map _id (documents (texts_coll w))) ->
  NoDup
    (map _id (documents (texts_coll
       (fst (serve_all str_ObjectId model_encode insert_one reqs w))))).
Proof.
  revert w. induction reqs as [|req rest IH]; intros w Hnd; [exact Hnd|].
  cbn [serve_all].
  pose proof (app_step Happends Hatomic req w) as Hstep. cbv zeta in Hstep.
  destruct (app str_ObjectId model_encode insert_one req w) as [w1 a].
  specialize (IH w1).
  destruct (serve_all str_ObjectId model_encode insert_one rest w1)
    as [w2 answers].
  cbn [fst snd] in *. apply IH.
  destruct Hstep as [[-> _] | (res & doc & t & Hi & _ & -> & _)]; [exact Hnd|].
  rewrite map_app. cbn.
  apply NoDup_app. split; [exact Hnd|]. split.
  - intros id Hin Hnew. apply list_elem_of_singleton in Hnew. subst id.
    apply (Hfresh _ _ _ _ Hi). apply list_elem_of_In. exact Hin.
  - apply NoDup_singleton.
Qed.

(** X7: the identifier in the answer of a successful call finds the
    document of that call and no other: with a store that adds what is
    inserted under an identifier not yet in the collection, the document
    built from the request is in the collection under that identifier,
    and every document of the collection with that identifier is it. *)
Theorem returned_id_identifies_document
    (Happends : insert_appends documents insert_one)
    (Hfresh : insert_fresh documents insert_one)
    (payload : AddTextRequest.t) (w w' : world pyfloat store)
    (answer : AddTextResponse.t) :
  run payload w = (w', Returned answer) ->
  exists id l,
    AddTextResponse.inserted_id answer = str_ObjectId id /\
    In (mkStored id (text_document (title payload) (content payload) l))
       (documents (texts_coll w')) /\
    forall d,
      In d (documents (texts_coll w')) -> _id d = id ->
      d = mkStored id (text_document (title payload) (content payload) l).
Proof.
  intros Hrun.
  destruct (add_text_returned _ _ _ _ _ _ _ _ _ _ Hrun)
    as (v & l & res & _ & _ & Hi & _ & ->).
  exists (result_inserted_id res), l.
  rewrite (Happends _ _ _ _ Hi).
  split; [reflexivity|]. split.
  - apply in_or_app. right. left. reflexivity.
  - intros d Hin Hid. apply in_app_or in Hin.
    destruct Hin as [Hold | [<- | []]]; [|reflexivity].
    exfalso. apply (Hfresh _ _ _ _ Hi). rewrite <- Hid.
    apply in_map. exact Hold.
Qed.

End Behaviour.

(** X10: for titles of a single line the framing loses nothing: two
    requests whose titles have no line feed and that are framed into the
    same text have the same title and the same content.  Only a line feed
    in a title can make two requests collide. *)
Theorem framing_injective_on_single_line_titles (t1 c1 t2 c2 : string) :
  has_line_feed t1 = false ->
  has_line_feed t2 = false ->
  blob t1 c1 = blob t2 c2 ->
  t1 = t2 /\ c1 = c2.
Proof.
  unfold blob. revert t2.
  induction t1 as [|a t1 IH]; intros [|b t2] H1 H2 Heq; cbn in *.
  - injection Heq as ->. split; reflexivity.
  - injection Heq as <- _. cbn in H2. discriminate.
  - injection Heq as -> _. cbn in H1. discriminate.
  - injection Heq as -> Heq.
    apply orb_false_iff in H1 as [_ H1]. apply orb_false_iff in H2 as [_ H2].
    destruct (IH t2 H1 H2 Heq) as [-> ->]. split; reflexivity.
Qed.

Lemma framing_injective_on_single_line_titles_witness :
  "Hello" = "Hello" /\ String LF "World" = String LF "World".
Proof.
  apply (framing_injective_on_single_line_titles
           "Hello" (String LF "World") "Hello" (String LF "World"));
    reflexivity.
Defined.

(** ** Further behaviour of the start-up *)




(** ** The further theorems on concrete requests *)

Lemma early_failure_skips_insert_witness :
  add_text Double.str_oid Double.encode_failing Double.mem_insert_one
    Double.hello Double.fresh =
    (mkWorld (Double.mkMem [] true) [Encode (blob "Hello" "World")],
     HTTPException 500 "out of memory").
Proof.
  apply (early_failure_skips_insert _ _ Double.str_oid Double.encode_failing
           _ Double.mem_insert_one Double.hello Double.fresh
           Double.out_of_memory).
  left. reflexivity.
Defined.

Lemma tolist_takes_precedence_witness :
  calls (fst (add_text Double.str_oid Double.encode_two_faced
                Double.mem_insert_one Double.hello Double.fresh)) =
    ([] ++ [Encode (blob "Hello" "World");
            InsertOne (text_document "Hello" "World" [1%Z; 2%Z])])%list /\
  add_text Double.str_oid Double.encode_bad_tolist Double.mem_insert_one
    Double.hello Double.fresh =
    (mkWorld (Double.mkMem [] true) ([] ++ [Encode (blob "Hello" "World")])%list,
     HTTPException 500 "'NoneType' object is not iterable").
Proof.
  split.
  - apply (tolist_takes_precedence _ _ Double.str_oid Double.encode_two_faced
             _ Double.mem_insert_one Double.hello Double.fresh
             (mkVector (Some (Ok [1%Z; 2%Z])) (Ok [3%Z])) (Ok [1%Z; 2%Z]));
      reflexivity.
  - apply (tolist_takes_precedence _ _ Double.str_oid Double.encode_bad_tolist
             _ Double.mem_insert_one Double.hello Double.fresh
             (mkVector (Some (Raise Double.not_iterable)) (Ok [3%Z]))
             (Raise Double.not_iterable));
      reflexivity.
Defined.

Lemma reply_status_all_or_nothing_witness :
  let r := Double.post (JObject Double.hello_world) Double.down in
  (status (snd r) = 422 <-> validate (JObject Double.hello_world) = None) /\
  ((status (snd r) = 200 /\
    exists d, Double.docs (texts_coll (fst r)) = ([] ++ [d])%list) \/
   ((status (snd r) = 422 \/ status (snd r) = 500) /\
    Double.docs (texts_coll (fst r)) = [])).
Proof.
  apply (reply_status_all_or_nothing _ _ Double.str_oid Double.encode_array _
           Double.docs Double.mem_insert_one double_appends double_atomic
           (JObject Double.hello_world) Double.down).
Defined.

Lemma served_requests_only_append_witness :
  let r := serve_all Double.str_oid Double.encode_array Double.mem_insert_one
             Double.traffic Double.fresh in
  exists added,
    Double.docs (texts_coll (fst r)) = ([] ++ added)%list /\
    map (fun d => (Double.str_oid (_id d), get (fields d) "title")) added =
      map (fun a => (AddTextResponse.inserted_id a,
                     Some (VStr (AddTextResponse.title a))))
          (successes (snd r)).
Proof.
  apply (served_requests_only_append _ _ Double.str_oid Double.encode_array _
           Double.docs Double.mem_insert_one double_appends double_atomic
           Double.traffic Double.fresh).
Defined.

Lemma identifiers_stay_distinct_witness :
  NoDup (map _id (Double.docs (texts_coll (fst
    (serve_all Double.str_oid Double.encode_array Double.mem_insert_one
       Double.traffic Double.fresh))))).
Proof.
  apply (identifiers_stay_distinct _ _ Double.str_oid Double.encode_array _
           Double.docs Double.mem_insert_one double_appends double_atomic
           double_fresh Double.traffic Double.fresh).
  constructor.
Defined.

Lemma returned_id_identifies_document_witness :
  exists id l,
    "000000000000000000000001" = Double.str_oid id /\
    In (mkStored id (text_document "Hello" "World" l))
       (Double.docs (texts_coll (fst (Double.serve Double.hello Double.fresh)))) /\
    forall d,
      In d (Double.docs (texts_coll (fst (Double.serve Double.hello Double.fresh)))) ->
      _id d = id -> d = mkStored id (text_document "Hello" "World" l).
Proof.
  apply (returned_id_identifies_document _ _ Double.str_oid Double.encode_array
           _ Double.docs Double.mem_insert_one double_appends double_fresh
           Double.hello Double.fresh
           (fst (Double.serve Double.hello Double.fresh))
           (AddTextResponse.mk "000000000000000000000001" "Hello")).
  vm_compute. reflexivity.
Defined.

